(** * Building energy dashboard: query service and presentation rules

    A shallow embedding of [api.py], [dashboard.py] and
    [dashboard_cloud.py].  The result table (a pandas [DataFrame] held in
    the module-level global [df]) is a list of typed rows together with
    the presence flags of its optional columns; the FastAPI handlers are
    computations that read that global and either return a value or raise
    an [HTTPException].

    Numbers: pandas and Python floats are modelled by exact rationals
    ([Q]); rounding, [NaN] and infinities of IEEE arithmetic are outside
    the model, except for the [NaN] that pandas stores in a missing cell of
    the [shap_json] column, which is a value of [PyVal].  Comparisons of
    finite floats are exact, so what is proved about orderings holds of
    the floats too; sums and quotients are rounded in the code and exact
    here, so nothing below states an equation or a bound on the value of
    a mean. *)

From Stdlib Require Import Ascii String QArith Qabs.
From stdpp Require Import gmap strings list sorting.

Open Scope string_scope.
Open Scope list_scope.
Open Scope Z_scope.

(** ** Python helpers *)

(** [sorted] and pandas' [nsmallest] are stable: rows with equal keys keep
    the order they had.  [insert_by before x l] puts [x] behind the
    elements of [l] that must strictly precede it and in front of the
    others, so that an element inserted from the left stays in front of
    its ties. *)
Fixpoint insert_by {A : Type} (before : A → A → bool) (x : A) (l : list A)
  : list A :=
  match l with
  | [] => [x]
  | y :: l' => if before y x then y :: insert_by before x l' else x :: l
  end.

Definition stable_sort {A : Type} (before : A → A → bool) (l : list A)
  : list A :=
  foldr (insert_by before) [] l.

(** Strict comparisons of rationals as booleans. *)
Definition Qltb (x y : Q) : bool := negb (Qle_bool y x).

(** [sum(l)] and [Series.mean()] over exact numbers: the sum divided by
    the number of values, without the rounding of float64. *)
Definition Qsum (l : list Q) : Q := foldr Qplus 0%Q l.

Definition mean (l : list Q) : Q := (Qsum l / inject_Z (Z.of_nat (length l)))%Q.

(** ** JSON values, as [json.loads] returns them *)

#[warnings="-register-all"]
Inductive JSON : Type :=
| JNull
| JBool (b : bool)
| JInt (n : Z)
| JFloat (q : Q)
| JStr (s : string)
| JList (l : list JSON)
| JDict (d : list (string * JSON)).

(** A Python [dict] keeps insertion order; storing under a key that is
    already there replaces the value in place. *)
Fixpoint dict_set {V : Type} (k : string) (v : V) (d : list (string * V))
  : list (string * V) :=
  match d with
  | [] => [(k, v)]
  | (k', v') :: d' =>
      if String.eqb k' k then (k, v) :: d' else (k', v') :: dict_set k v d'
  end.

(** ** The result table *)

(** A cell of the nullable [shap_json] column. *)
Inductive PyVal : Type :=
| PyNone
| PyNaN
| PyStr (s : string).

(** Python truthiness: [None] and the empty string are falsy, a float
    [nan] is truthy. *)
Definition truthy (v : PyVal) : bool :=
  match v with
  | PyNone => false
  | PyNaN => true
  | PyStr s => negb (String.eqb s EmptyString)
  end.

(** [pd.notna] *)
Definition notna (v : PyVal) : bool :=
  match v with
  | PyNone | PyNaN => false
  | PyStr _ => true
  end.

Record Building : Type := {
  building_id : string;
  building_type : string;
  cluster : Z;
  is_anomaly : bool;
  underperformer : bool;
  priority_rank : Z;
  baseload : Q;
  weekend_ratio : Q;
  recommendation : string;
  shap_json : PyVal
}.

(** [has_*] record whether the optional column is in [df.columns]; the
    field of a row under an absent column is never read. *)
Record DataFrame : Type := {
  rows : list Building;
  has_underperformer : bool;
  has_weekend_ratio : bool;
  has_shap_json : bool
}.

(** [df[df['building_id'] == building_id]] and [df[df['cluster'] == cluster_id]] *)
Definition where_building_id (bid : string) (l : list Building) : list Building :=
  filter (λ r, building_id r = bid) l.

Definition where_cluster (cid : Z) (l : list Building) : list Building :=
  filter (λ r, cluster r = cid) l.

(** [int(df[col].sum())] of a boolean column. *)
Definition bool_sum (l : list bool) : Z :=
  foldr (λ b acc, (if b : bool then 1 else 0) + acc) 0 l.

(** [df['cluster'].value_counts().to_dict()] *)
Definition value_counts (l : list Z) : gmap Z nat :=
  foldr (λ c m, <[c := S (default O (m !! c))]> m) ∅ l.

(** [df.nsmallest(n, 'priority_rank')]: the first [n] rows of the table
    sorted by rank, ties in table order ([keep='first']). *)
Definition rank_before (x y : Building) : bool :=
  Z.ltb (priority_rank x) (priority_rank y).

Definition nsmallest (n : nat) (l : list Building) : list Building :=
  take n (stable_sort rank_before l).

(** The projection [[['building_id', 'building_type', 'recommendation',
    'priority_rank']]] of a row. *)
Record PriorityEntry : Type := {
  pe_building_id : string;
  pe_building_type : string;
  pe_recommendation : string;
  pe_priority_rank : Z
}.

Definition project (r : Building) : PriorityEntry :=
  {| pe_building_id := building_id r;
     pe_building_type := building_type r;
     pe_recommendation := recommendation r;
     pe_priority_rank := priority_rank r |}.

Record Summary : Type := {
  total_buildings : nat;
  anomalies : Z;
  underperformers : Z;
  clusters : gmap Z nat;
  top_priority : list PriorityEntry
}.

(** The dictionary returned for a cluster. *)
Record ClusterData : Type := {
  cluster_id : Z;
  count : nat;
  avg_baseload : Q;
  avg_weekend_ratio : option Q;
  buildings : list string
}.

(** The dictionary returned for a building: the row, and the key
    [shap_values] when it was set. *)
Record BuildingRecord : Type := {
  record : Building;
  shap_values : option JSON
}.

(** ** [json.loads]

    The decoder of the Python standard library, written after its scanner
    ([scan_once], [scanstring], [JSONObject], [JSONArray] and the number
    pattern).  Two parts of the grammar are left out and rejected here:
    the [\u] escapes of strings, and the literals [NaN], [Infinity] and
    [-Infinity], which have no rational value.  The query service below
    does not depend on this decoder: it takes the decoder as a variable. *)
Module Json.

Definition quote : ascii := "034"%char.
Definition backslash : ascii := "092"%char.

Definition is_ws (c : ascii) : bool :=
  Ascii.eqb c " " || Ascii.eqb c "009" || Ascii.eqb c "010" || Ascii.eqb c "013".

Fixpoint skip_ws (cs : list ascii) : list ascii :=
  match cs with
  | c :: cs' => if is_ws c then skip_ws cs' else cs
  | [] => []
  end.

Definition digit_of (c : ascii) : option Z :=
  let n := Z.of_nat (nat_of_ascii c) in
  if (48 <=? n) && (n <=? 57) then Some (n - 48) else None.

Fixpoint span_digits (cs : list ascii) : list Z * list ascii :=
  match cs with
  | c :: cs' =>
      match digit_of c with
      | Some d => let '(ds, rest) := span_digits cs' in (d :: ds, rest)
      | None => ([], cs)
      end
  | [] => ([], [])
  end.

Definition decimal (ds : list Z) : Z := foldl (λ acc d, 10 * acc + d) 0 ds.

Definition unescape (c : ascii) : option ascii :=
  if Ascii.eqb c quote then Some quote
  else if Ascii.eqb c backslash then Some backslash
  else if Ascii.eqb c "/" then Some "/"%char
  else if Ascii.eqb c "b" then Some "008"%char
  else if Ascii.eqb c "f" then Some "012"%char
  else if Ascii.eqb c "n" then Some "010"%char
  else if Ascii.eqb c "r" then Some "013"%char
  else if Ascii.eqb c "t" then Some "009"%char
  else None.

(** The characters after an opening quote, up to the closing one. *)
Fixpoint scanstring (cs : list ascii) : option (string * list ascii) :=
  match cs with
  | [] => None
  | c :: cs' =>
      if Ascii.eqb c quote then Some (EmptyString, cs')
      else if Ascii.eqb c backslash then
        match cs' with
        | e :: cs'' =>
            match unescape e, scanstring cs'' with
            | Some ch, Some (s, rest) => Some (String ch s, rest)
            | _, _ => None
            end
        | [] => None
        end
      else if (nat_of_ascii c <? 32)%nat then None
      else
        match scanstring cs' with
        | Some (s, rest) => Some (String c s, rest)
        | None => None
        end
  end.

(** The number pattern: an optional minus sign; an integer part that is
    a single zero or starts with a non-zero digit; optionally a point with
    at least one digit; optionally [e] or [E], a sign and at least one
    digit.  The value is an [int] when there is neither fraction nor
    exponent, a [float] otherwise. *)
Definition pow10 (e : Z) : Q :=
  if 0 <=? e then inject_Z (10 ^ e) else (1 / inject_Z (10 ^ (- e)))%Q.

Definition scan_number (cs : list ascii) : option (JSON * list ascii) :=
  let '(neg, cs1) :=
    match cs with
    | c :: cs' => if Ascii.eqb c "-" then (true, cs') else (false, cs)
    | [] => (false, [])
    end in
  match span_digits cs1 with
  | ([], _) => None
  | (d :: ds, rest) =>
      let '(ipart, rest1) :=
        if d =? 0 then (0, drop 1 cs1) else (decimal (d :: ds), rest) in
      let '(frac, rest2) :=
        match rest1 with
        | c :: r =>
            if Ascii.eqb c "." then
              match span_digits r with
              | ([], _) => (None, rest1)
              | (fs, r') =>
                  (Some (inject_Z (decimal fs) / inject_Z (10 ^ Z.of_nat (length fs)))%Q, r')
              end
            else (None, rest1)
        | [] => (None, rest1)
        end in
      let '(exp, rest3) :=
        match rest2 with
        | c :: r =>
            if Ascii.eqb c "e" || Ascii.eqb c "E" then
              let '(eneg, r1) :=
                match r with
                | s :: r' =>
                    if Ascii.eqb s "-" then (true, r')
                    else if Ascii.eqb s "+" then (false, r')
                    else (false, r)
                | [] => (false, r)
                end in
              match span_digits r1 with
              | ([], _) => (None, rest2)
              | (es, r2) => (Some (if eneg : bool then - decimal es else decimal es), r2)
              end
            else (None, rest2)
        | [] => (None, rest2)
        end in
      match frac, exp with
      | None, None => Some (JInt (if neg : bool then - ipart else ipart), rest3)
      | _, _ =>
          let m := (inject_Z ipart + default 0 frac)%Q in
          let v := (m * pow10 (default 0%Z exp))%Q in
          Some (JFloat (Qred (if neg : bool then - v else v)%Q), rest3)
      end
  end.

Fixpoint strip_prefix (p cs : list ascii) : option (list ascii) :=
  match p, cs with
  | [], _ => Some cs
  | a :: p', c :: cs' => if Ascii.eqb a c then strip_prefix p' cs' else None
  | _ :: _, [] => None
  end.

Section Containers.
(** The decoder of one value, at the nesting depth below. *)
Variable value : list ascii → option (JSON * list ascii).

(** [JSONArray], after the first value position is reached. *)
Fixpoint scan_elements (n : nat) (acc : list JSON) (cs : list ascii)
  : option (JSON * list ascii) :=
  match n with
  | O => None
  | S n' =>
      match value cs with
      | None => None
      | Some (v, r) =>
          match skip_ws r with
          | c :: r' =>
              if Ascii.eqb c "]" then Some (JList (acc ++ [v]), r')
              else if Ascii.eqb c "," then scan_elements n' (acc ++ [v]) (skip_ws r')
              else None
          | [] => None
          end
      end
  end.

(** [JSONObject], at the opening quote of a key. *)
Fixpoint scan_members (n : nat) (acc : list (string * JSON)) (cs : list ascii)
  : option (JSON * list ascii) :=
  match n with
  | O => None
  | S n' =>
      match cs with
      | q :: cs' =>
          if Ascii.eqb q quote then
            match scanstring cs' with
            | None => None
            | Some (k, r) =>
                match skip_ws r with
                | c :: r1 =>
                    if Ascii.eqb c ":" then
                      match value (skip_ws r1) with
                      | None => None
                      | Some (v, r2) =>
                          match skip_ws r2 with
                          | c' :: r3 =>
                              if Ascii.eqb c' "}" then Some (JDict (dict_set k v acc), r3)
                              else if Ascii.eqb c' "," then
                                scan_members n' (dict_set k v acc) (skip_ws r3)
                              else None
                          | [] => None
                          end
                      end
                    else None
                | [] => None
                end
            end
          else None
      | [] => None
      end
  end.
End Containers.

Fixpoint scan_once (fuel : nat) (cs : list ascii) : option (JSON * list ascii) :=
  match fuel with
  | O => None
  | S fuel' =>
      match cs with
      | [] => None
      | c :: cs' =>
          if Ascii.eqb c quote then
            match scanstring cs' with
            | Some (s, r) => Some (JStr s, r)
            | None => None
            end
          else if Ascii.eqb c "{" then
            match skip_ws cs' with
            | c2 :: r =>
                if Ascii.eqb c2 "}" then Some (JDict [], r)
                else scan_members (scan_once fuel') fuel' [] (c2 :: r)
            | [] => None
            end
          else if Ascii.eqb c "[" then
            match skip_ws cs' with
            | c2 :: r =>
                if Ascii.eqb c2 "]" then Some (JList [], r)
                else scan_elements (scan_once fuel') fuel' [] (c2 :: r)
            | [] => None
            end
          else if Ascii.eqb c "n" then
            r ← strip_prefix (list_ascii_of_string "ull") cs'; Some (JNull, r)
          else if Ascii.eqb c "t" then
            r ← strip_prefix (list_ascii_of_string "rue") cs'; Some (JBool true, r)
          else if Ascii.eqb c "f" then
            r ← strip_prefix (list_ascii_of_string "alse") cs'; Some (JBool false, r)
          else scan_number cs
      end
  end.

(** [json.loads(s)]: one value between optional white space, and nothing
    after it; [None] stands for the exception raised otherwise. *)
Definition loads (s : string) : option JSON :=
  let cs := list_ascii_of_string s in
  match scan_once (S (length cs)) (skip_ws cs) with
  | Some (v, r) => match skip_ws r with [] => Some v | _ :: _ => None end
  | None => None
  end.

(** A string within double quotes, as it is written in a JSON text. *)
Definition quoted (s : string) : string :=
  String quote (s ++ String quote EmptyString).

End Json.

(** ** Handlers over the global table

    A handler reads the module-level [df]; it returns a value or raises an
    [HTTPException], which FastAPI turns into an error response.  The
    table is threaded through, so that what a handler does to it can be
    stated. *)

Inductive Response (A : Type) : Type :=
| Ok (a : A)
| HTTPException (status_code : Z) (detail : string).

Arguments Ok {A} a.
Arguments HTTPException {A} status_code detail.

Definition Endpoint (A : Type) : Type := DataFrame → Response A * DataFrame.

#[global] Instance endpoint_ret : MRet Endpoint :=
  λ A a df, (Ok a, df).

#[global] Instance endpoint_bind : MBind Endpoint :=
  λ A B k m df,
    match m df with
    | (Ok a, df') => k a df'
    | (HTTPException c d, df') => (HTTPException c d, df')
    end.

Definition get_df : Endpoint DataFrame := λ df, (Ok df, df).

Definition raise {A : Type} (status_code : Z) (detail : string) : Endpoint A :=
  λ df, (HTTPException status_code detail, df).

(** ** [api.py] *)
Module Api.
Section Handlers.
(** [json.loads] on a string; [None] when it raises. *)
Variable json_loads : string → option JSON.

(** [json.loads] on a cell: [None] and [nan] are not strings and raise
    a [TypeError]. *)
Definition loads_cell (v : PyVal) : option JSON :=
  match v with
  | PyStr s => json_loads s
  | PyNone | PyNaN => None
  end.

Definition root : Endpoint nat :=
  df ← get_df; mret (length (rows df)).

Definition list_buildings : Endpoint (list (string * string * Z)) :=
  df ← get_df;
  mret ((λ r, (building_id r, building_type r, priority_rank r)) <$> rows df).

Definition get_building (bid : string) : Endpoint BuildingRecord :=
  df ← get_df;
  let row := where_building_id bid (rows df) in
  match row with
  | [] => raise 404 "Building not found"
  | r :: _ =>
      mret {| record := r;
              shap_values :=
                if has_shap_json df && truthy (shap_json r) then
                  match loads_cell (shap_json r) with
                  | Some v => Some v
                  | None => Some (JDict [])
                  end
                else None |}
  end.

Definition get_summary : Endpoint Summary :=
  df ← get_df;
  mret {| total_buildings := length (rows df);
          anomalies := bool_sum (is_anomaly <$> rows df);
          underperformers :=
            if has_underperformer df
            then bool_sum (underperformer <$> rows df) else 0;
          clusters := value_counts (cluster <$> rows df);
          top_priority := project <$> nsmallest 10 (rows df) |}.

Definition get_cluster (cid : Z) : Endpoint ClusterData :=
  df ← get_df;
  let cluster_df := where_cluster cid (rows df) in
  match cluster_df with
  | [] => raise 404 "Cluster not found"
  | _ :: _ =>
      mret {| cluster_id := cid;
              count := length cluster_df;
              avg_baseload := mean (baseload <$> cluster_df);
              avg_weekend_ratio :=
                if has_weekend_ratio df
                then Some (mean (weekend_ratio <$> cluster_df)) else None;
              buildings := building_id <$> cluster_df |}
  end.
End Handlers.
End Api.

(** ** [dashboard_cloud.py]: the helpers that read the table directly *)
Module Cloud.
Section Helpers.
Variable json_loads : string → option JSON.

Definition get_summary (df : DataFrame) : Summary :=
  {| total_buildings := length (rows df);
     anomalies := bool_sum (is_anomaly <$> rows df);
     underperformers :=
       if has_underperformer df
       then bool_sum (underperformer <$> rows df) else 0;
     clusters := value_counts (cluster <$> rows df);
     top_priority := project <$> nsmallest 10 (rows df) |}.

(** Here a missing building is [None], and [shap_values] is always
    set. *)
Definition get_building (bid : string) (df : DataFrame) : option BuildingRecord :=
  let row := where_building_id bid (rows df) in
  match row with
  | [] => None
  | r :: _ =>
      Some {| record := r;
              shap_values :=
                if has_shap_json df && truthy (shap_json r) && notna (shap_json r) then
                  match Api.loads_cell json_loads (shap_json r) with
                  | Some v => Some v
                  | None => Some (JDict [])
                  end
                else Some (JDict []) |}
  end.
End Helpers.

(** The dictionary of [get_cluster] here has no [buildings] key. *)
Record ClusterStats : Type := {
  cs_cluster_id : Z;
  cs_count : nat;
  cs_avg_baseload : Q;
  cs_avg_weekend_ratio : option Q
}.

Definition get_cluster (cid : Z) (df : DataFrame) : option ClusterStats :=
  let cluster_df := where_cluster cid (rows df) in
  match cluster_df with
  | [] => None
  | _ :: _ =>
      Some {| cs_cluster_id := cid;
              cs_count := length cluster_df;
              cs_avg_baseload := mean (baseload <$> cluster_df);
              cs_avg_weekend_ratio :=
                if has_weekend_ratio df
                then Some (mean (weekend_ratio <$> cluster_df)) else None |}
  end.
End Cloud.

(** ** Presentation rules shared by [dashboard.py] and [dashboard_cloud.py] *)

Inductive Label : Type := high_baseload | efficient | standard.

Record Description : Type := {
  name : string;
  description : string;
  action : string
}.

Definition descriptions (l : Label) : Description :=
  match l with
  | high_baseload =>
      {| name := "🔴 High Baseload (24/7 Operators)";
         description := "Buildings with consistently high energy use, even during off-hours.";
         action := "**Action:** Priority targets for energy audits and demand-side management programs." |}
  | efficient =>
      {| name := "🟢 Efficient Buildings";
         description := "Well-managed buildings with good weekend/night shutdown patterns.";
         action := "**Action:** Use as benchmarks. Document best practices for other buildings." |}
  | standard =>
      {| name := "🟡 Standard Operations";
         description := "Typical consumption patterns with some optimization potential.";
         action := "**Action:** Secondary priority for retro-commissioning programs." |}
  end.

Section ClusterDescription.
(** The keys of [cluster_stats] are cluster ids as the summary has them
    (integers in [dashboard_cloud.py], their decimal strings after the
    JSON round trip in [dashboard.py]); [int] converts them. *)
Context {K : Type} (int : K → Z).

(** [sorted(..., key=lambda x: x[1]['avg_baseload'], reverse=True)] *)
Definition baseload_before (x y : K * ClusterData) : bool :=
  Qltb (avg_baseload y.2) (avg_baseload x.2).

Definition clusters_by_baseload (cluster_stats : list (K * ClusterData))
  : list (K * ClusterData) :=
  stable_sort baseload_before cluster_stats.

(** The loop over [enumerate(clusters_by_baseload)], from index [i] on;
    [n] is [len(clusters_by_baseload)]. *)
Fixpoint describe_from (cid : Z) (n i : nat) (l : list (K * ClusterData))
  : Label :=
  match l with
  | [] => standard
  | (k, _) :: l' =>
      if int k =? cid then
        if (i =? 0)%nat then high_baseload
        else if (i =? n - 1)%nat then efficient
        else standard
      else describe_from cid n (S i) l'
  end.

Definition cluster_label (cid : Z) (cluster_stats : list (K * ClusterData))
  : Label :=
  let sorted := clusters_by_baseload cluster_stats in
  describe_from cid (length sorted) 0 sorted.

Definition get_cluster_description (cid : Z)
    (cluster_stats : list (K * ClusterData)) : Description :=
  descriptions (cluster_label cid cluster_stats).
End ClusterDescription.

(** [abs] of a JSON value: defined on numbers ([bool] is a subclass of
    [int]), a [TypeError] otherwise. *)
Definition abs (v : JSON) : option Q :=
  match v with
  | JInt n => Some (inject_Z (Z.abs n))
  | JFloat q => Some (Qabs q)
  | JBool b => Some (if b then 1%Q else 0%Q)
  | JNull | JStr _ | JList _ | JDict _ => None
  end.

(** [sorted(shap_values.items(), key=lambda x: abs(x[1]), reverse=True)]:
    the key is computed for every item first, then the items are sorted on
    it; [None] when [shap_values] has no [items] or a key raises. *)
Definition abs_before (x y : Q * (string * JSON)) : bool := Qltb y.1 x.1.

Definition sorted_shap (shap_values : JSON) : option (list (string * JSON)) :=
  match shap_values with
  | JDict items =>
      keyed ← mapM (λ x : string * JSON, k ← abs x.2; Some (k, x)) items;
      Some (snd <$> stable_sort abs_before keyed)
  | JNull | JBool _ | JInt _ | JFloat _ | JStr _ | JList _ => None
  end.

(** ** [dashboard.py] *)
Module Dashboard.
(** The delta of the anomalies metric,
    [summary['anomalies'] / summary['total_buildings'] * 100], before it is
    formatted; [None] stands for the [ZeroDivisionError]. *)
Definition anomaly_percent (summary : Summary) : option Q :=
  if (total_buildings summary =? 0)%nat then None
  else Some (inject_Z (anomalies summary)
             / inject_Z (Z.of_nat (total_buildings summary)) * 100)%Q.
End Dashboard.

(** ** Definitions used to state the properties *)

(** The number of rows of a cluster. *)
Definition cluster_size (cid : Z) (l : list Building) : nat :=
  length (filter (λ r, cluster r = cid) l).

(** The sum of the values of a [value_counts] dictionary. *)
Definition total_count (m : gmap Z nat) : nat :=
  map_fold (λ _ n acc, (n + acc)%nat) O m.

(** [x] may stand in front of [y] in a list sorted with [before]. *)
Definition may_precede {A : Type} (before : A → A → bool) (x y : A) : Prop :=
  before y x = false.

(** The value a handler returns on a table, when it returns one. *)
Definition returned {A : Type} (m : Endpoint A) (df : DataFrame) : option A :=
  match m df with
  | (Ok a, _) => Some a
  | (HTTPException _ _, _) => None
  end.

(** Unfold a handler down to the pair it returns. *)
Ltac run_endpoint :=
  unfold returned, Api.root, Api.list_buildings, Api.get_building,
    Api.get_summary, Api.get_cluster, raise, get_df,
    mbind, endpoint_bind, mret, endpoint_ret;
  cbn beta iota.

(** A small table used to run the handlers. *)
Definition sample_row (bid : string) (c r : Z) (anom : bool) (b : Q) (shap : PyVal)
  : Building :=
  {| building_id := bid; building_type := "Office"; cluster := c;
     is_anomaly := anom; underperformer := false; priority_rank := r;
     baseload := b; weekend_ratio := 0.5%Q; recommendation := "Audit";
     shap_json := shap |}.

Definition sample_df : DataFrame :=
  {| rows := [sample_row "B1" 0 3 true 10%Q (PyStr "not json");
              sample_row "B2" 1 1 false 4%Q PyNone;
              sample_row "B3" 0 2 true 20%Q (PyStr EmptyString)];
     has_underperformer := true;
     has_weekend_ratio := true;
     has_shap_json := true |}.

(** The number of rows flagged as anomalies. *)
Definition anomaly_count (l : list Building) : Z :=
  Z.of_nat (length (filter (λ r, is_anomaly r = true) l)).

(** The label of the cluster at position [p] among [n] sorted clusters. *)
Definition label_at (n p : nat) : Label :=
  if (p =? 0)%nat then high_baseload
  else if (p =? n - 1)%nat then efficient
  else standard.

(** Three clusters used to run the labeling rule. *)
Definition sample_cluster (cid : Z) (b : Q) : Z * ClusterData :=
  (cid, {| cluster_id := cid; count := 1; avg_baseload := b;
           avg_weekend_ratio := None; buildings := [] |}).

Definition sample_stats : list (Z * ClusterData) :=
  [sample_cluster 0 9%Q; sample_cluster 1 15%Q; sample_cluster 2 4%Q].

(** Clusters 0 and 1 tie at the top, clusters 2 and 3 at the bottom. *)
Definition tied_stats : list (Z * ClusterData) :=
  [sample_cluster 0 9%Q; sample_cluster 1 9%Q; sample_cluster 2 4%Q;
   sample_cluster 3 4%Q].

(** The JSON object that maps [a] to 0.5 and [b] to -0.3, as a text. *)
Definition shap_payload : string :=
  "{" ++ Json.quoted "a" ++ ": 0.5, " ++ Json.quoted "b" ++ ": -0.3}".

Definition shap_df : DataFrame :=
  {| rows := [sample_row "B1" 0 1 false 10%Q (PyStr shap_payload)];
     has_underperformer := false;
     has_weekend_ratio := false;
     has_shap_json := true |}.



(** * Properties *)

(** ** Stable sorting *)
Section StableSortFacts.
Context {A : Type} (before : A → A → bool).

Lemma insert_by_perm x l : insert_by before x l ≡ₚ x :: l.
Proof.
  induction l as [|y l IH]; simpl; [done|].
  destruct (before y x); [|done].
  rewrite IH. apply Permutation_swap.
Qed.

Lemma stable_sort_perm l : stable_sort before l ≡ₚ l.
Proof.
  induction l as [|x l IH]; simpl; [done|].
  rewrite insert_by_perm. by f_equiv.
Qed.

Lemma stable_sort_length l : length (stable_sort before l) = length l.
Proof. by rewrite stable_sort_perm. Qed.

Lemma stable_sort_elem_of x l : x ∈ stable_sort before l ↔ x ∈ l.
Proof. by rewrite stable_sort_perm. Qed.

Hypothesis before_asym : ∀ x y, before x y = true → before y x = false.
Hypothesis may_precede_trans : ∀ x y z,
  may_precede before x y → may_precede before y z → may_precede before x z.

Lemma insert_by_sorted x l :
  StronglySorted (may_precede before) l →
  StronglySorted (may_precede before) (insert_by before x l).
Proof.
  induction 1 as [|y l Hl IH Hy]; simpl.
  - repeat constructor.
  - destruct (before y x) eqn:Hyx.
    + constructor; [done|].
      rewrite Forall_forall. intros z Hz.
      rewrite insert_by_perm in Hz.
      apply elem_of_cons in Hz as [->|Hz].
      * by apply before_asym.
      * rewrite Forall_forall in Hy. by apply Hy.
    + constructor; [by constructor|].
      constructor; [done|].
      eapply Forall_impl; [exact Hy|].
      intros z Hz. by eapply may_precede_trans.
Qed.

Lemma stable_sort_sorted l :
  StronglySorted (may_precede before) (stable_sort before l).
Proof.
  induction l as [|x l IH]; simpl; [constructor|].
  by apply insert_by_sorted.
Qed.
End StableSortFacts.

Lemma StronglySorted_take {A} (R : relation A) n l :
  StronglySorted R l → StronglySorted R (take n l).
Proof.
  intros Hl. revert n.
  induction Hl as [|x l Hl IH Hx]; intros [|n]; simpl; try constructor.
  - apply IH.
  - eapply Forall_forall. intros y Hy.
    rewrite Forall_forall in Hx. apply Hx.
    by eapply subseteq_take.
Qed.

Lemma StronglySorted_weaken {A} (R R' : relation A) l :
  (∀ x y, R x y → R' x y) → StronglySorted R l → StronglySorted R' l.
Proof.
  intros HR. induction 1 as [|x l Hl IH Hx]; constructor; [done|].
  eapply Forall_impl; [exact Hx|]. intros y. apply HR.
Qed.

(** The table sorted by rank is in ascending order of rank. *)
Lemma sorted_by_rank l :
  StronglySorted (λ x y, priority_rank x ≤ priority_rank y)
    (stable_sort rank_before l).
Proof.
  eapply StronglySorted_weaken; [|apply stable_sort_sorted].
  - unfold may_precede, rank_before. intros x y H. lia.
  - unfold rank_before. intros x y H. lia.
  - unfold may_precede, rank_before. intros x y z H1 H2. lia.
Qed.

(** ** The query service *)

Lemma bool_sum_count (l : list Building) (f : Building → bool) :
  bool_sum (f <$> l) = Z.of_nat (length (filter (λ r, f r = true) l)).
Proof.
  induction l as [|x l IH]; [done|].
  rewrite fmap_cons, filter_cons.
  change (bool_sum (f x :: (f <$> l)))
    with ((if f x then 1 else 0) + bool_sum (f <$> l)).
  rewrite IH. destruct (f x) eqn:Hx.
  - rewrite decide_True by done. simpl length. lia.
  - rewrite decide_False by congruence. lia.
Qed.

Lemma filter_none {A} (P : A → Prop) `{∀ x, Decision (P x)} (l : list A) :
  (∀ x, x ∈ l → ¬ P x) → filter P l = [].
Proof.
  induction l as [|x l IH]; intros Hl; [done|].
  rewrite filter_cons_False; [apply IH|apply Hl; by left].
  intros y Hy. apply Hl. by right.
Qed.

Lemma where_building_id_unique (l : list Building) (r : Building) :
  NoDup (building_id <$> l) → r ∈ l →
  where_building_id (building_id r) l = [r].
Proof.
  unfold where_building_id.
  induction l as [|x l IH]; intros Hnd Hr; [by apply elem_of_nil in Hr|].
  rewrite fmap_cons in Hnd. apply NoDup_cons in Hnd as [Hx Hnd].
  rewrite filter_cons.
  apply elem_of_cons in Hr as [->|Hr].
  - rewrite decide_True by done. f_equal.
    apply filter_none. intros y Hy Heq.
    apply Hx. rewrite <- Heq. by apply list_elem_of_fmap_2.
  - rewrite decide_False; [by apply IH|].
    intros Heq. apply Hx. rewrite Heq. by apply list_elem_of_fmap_2.
Qed.

Lemma where_building_id_found (l : list Building) (bid : string) :
  bid ∈ building_id <$> l →
  ∃ r rest, where_building_id bid l = r :: rest ∧ r ∈ l ∧ building_id r = bid.
Proof.
  intros (x & -> & Hx)%list_elem_of_fmap.
  assert (Hin : x ∈ where_building_id (building_id x) l)
    by by apply list_elem_of_filter.
  destruct (where_building_id (building_id x) l) as [|r rest] eqn:Hw;
    [by apply elem_of_nil in Hin|].
  assert (Hr : r ∈ where_building_id (building_id x) l)
    by (rewrite Hw; apply elem_of_cons; by left).
  apply list_elem_of_filter in Hr as [Hid Hr]. eauto.
Qed.

Lemma where_building_id_absent (l : list Building) (bid : string) :
  bid ∉ building_id <$> l → where_building_id bid l = [].
Proof.
  intros Hn. apply filter_none.
  intros r Hr Hid. apply Hn. rewrite <- Hid. by apply list_elem_of_fmap_2.
Qed.

Lemma where_cluster_absent (l : list Building) (cid : Z) :
  cid ∉ cluster <$> l → where_cluster cid l = [].
Proof.
  intros Hn. apply filter_none.
  intros r Hr Hid. apply Hn. rewrite <- Hid. by apply list_elem_of_fmap_2.
Qed.

(** Ranks 3, 1, 2: the two smallest are 1 and 2, in that order. *)
Example nsmallest_3_1_2 :
  priority_rank <$> nsmallest 2 (rows sample_df) = [1; 2].
Proof. reflexivity. Qed.

(** C2.  For every table, the [top_priority] list of [get_summary] is in
    ascending order of [priority_rank], has [min 10 (number of rows)]
    entries, and every entry carries the [building_id], [building_type],
    [recommendation] and [priority_rank] of one row of the table;
    moreover a row that is not among them has a rank at least as large as
    each of theirs. *)
Theorem top_priority_sorted_top10 (df : DataFrame) :
  ∃ s, Api.get_summary df = (Ok s, df) ∧
    StronglySorted (λ x y, pe_priority_rank x ≤ pe_priority_rank y)
      (top_priority s) ∧
    length (top_priority s) = Nat.min 10 (length (rows df)) ∧
    Forall (λ e, ∃ r, r ∈ rows df ∧
                      pe_building_id e = building_id r ∧
                      pe_building_type e = building_type r ∧
                      pe_recommendation e = recommendation r ∧
                      pe_priority_rank e = priority_rank r)
      (top_priority s) ∧
    (∀ r, r ∈ rows df →
       (∃ e, e ∈ top_priority s ∧
             pe_building_id e = building_id r ∧
             pe_building_type e = building_type r ∧
             pe_recommendation e = recommendation r ∧
             pe_priority_rank e = priority_rank r) ∨
       Forall (λ e, pe_priority_rank e ≤ priority_rank r) (top_priority s)).
Proof.
  eexists. split; [reflexivity|]. cbn [top_priority]. unfold nsmallest.
  pose proof (sorted_by_rank (rows df)) as Hs.
  split; [|split; [|split]].
  - eapply StronglySorted_fmap; [|by apply StronglySorted_take].
    by intros x y.
  - by rewrite length_fmap, length_take, stable_sort_length.
  - apply Forall_fmap, Forall_forall. intros r Hr. exists r.
    split; [|by repeat split].
    apply (stable_sort_elem_of rank_before). by eapply subseteq_take.
  - intros r Hr.
    apply (stable_sort_elem_of rank_before) in Hr.
    rewrite <- (take_drop 10 (stable_sort rank_before (rows df))) in Hr, Hs.
    apply elem_of_app in Hr as [Hr|Hr].
    + left. exists (project r).
      split; [by apply list_elem_of_fmap_2|by repeat split].
    + right. apply Forall_fmap, Forall_forall. intros e He. simpl.
      by eapply (StronglySorted_app_1_elem_of _ _ _ e r Hs).
Qed.

Lemma top_priority_sorted_top10_witness :
  ∃ s, Api.get_summary sample_df = (Ok s, sample_df) ∧
    pe_priority_rank <$> top_priority s = [1; 2; 3] ∧
    pe_building_id <$> top_priority s = ["B2"; "B3"; "B1"] ∧
    length (top_priority s) = Nat.min 10 (length (rows sample_df)) ∧
    Forall (λ e, ∃ r, r ∈ rows sample_df ∧
                      pe_building_id e = building_id r ∧
                      pe_building_type e = building_type r ∧
                      pe_recommendation e = recommendation r ∧
                      pe_priority_rank e = priority_rank r)
      (top_priority s).
Proof.
  destruct (top_priority_sorted_top10 sample_df) as (s & Hs & _ & Hlen & Hp & _).
  exists s. split; [exact Hs|].
  split; [|split; [|split; [exact Hlen|exact Hp]]];
    injection Hs as <-; reflexivity.
Defined.

(** C4.  The [anomalies] field of [get_summary] is the number of rows whose
    [is_anomaly] is true.  It is the same on a table with the rows
    permuted, and on a table made of some of the rows it is the number of
    true flags among those rows (and no more than on the whole table). *)
Theorem anomalies_counts_flags (df : DataFrame) :
  anomalies <$> returned Api.get_summary df = Some (anomaly_count (rows df)) ∧
  (∀ df', rows df' ≡ₚ rows df →
     anomalies <$> returned Api.get_summary df'
     = anomalies <$> returned Api.get_summary df) ∧
  (∀ df', rows df' ⊆+ rows df →
     ∃ n, anomalies <$> returned Api.get_summary df' = Some n ∧
          n = anomaly_count (rows df') ∧ n ≤ anomaly_count (rows df)).
Proof.
  assert (Hs : ∀ d, anomalies <$> returned Api.get_summary d
                    = Some (anomaly_count (rows d))).
  { intros d. run_endpoint. cbn. f_equal. apply bool_sum_count. }
  split; [apply Hs|split].
  - intros df' Hp. rewrite !Hs. unfold anomaly_count. by rewrite Hp.
  - intros df' Hsub. eexists. split; [apply Hs|]. split; [done|].
    unfold anomaly_count. apply inj_le, submseteq_length.
    clear Hs. induction Hsub as [|x l1 l2 _ IH|x y l|x l1 l2 _ IH|l1 l2 l3 _ IH1 _ IH2].
    + done.
    + rewrite !filter_cons. case_decide; [by apply submseteq_skip|done].
    + rewrite !filter_cons. repeat case_decide; try done. apply submseteq_swap.
    + rewrite filter_cons. case_decide; [by apply submseteq_cons|done].
    + by etrans.
Qed.

Lemma anomalies_counts_flags_witness :
  anomalies <$> returned Api.get_summary sample_df = Some 2 ∧
  anomalies <$> returned Api.get_summary
    {| rows := reverse (rows sample_df); has_underperformer := false;
       has_weekend_ratio := false; has_shap_json := false |}
  = Some 2 ∧
  ∃ n, anomalies <$> returned Api.get_summary
         {| rows := take 2 (rows sample_df); has_underperformer := false;
            has_weekend_ratio := false; has_shap_json := false |}
       = Some n ∧ n = 1 ∧ n ≤ 2.
Proof.
  pose proof (anomalies_counts_flags sample_df) as (H1 & H2 & H3).
  split; [exact H1|split].
  - etrans; [|exact H1]. apply H2. exact (reverse_Permutation (rows sample_df)).
  - destruct (H3 {| rows := take 2 (rows sample_df); has_underperformer := false;
                    has_weekend_ratio := false; has_shap_json := false |})
      as (n & Hn & Hc & Hle).
    + exact (submseteq_take (rows sample_df) 2).
    + exists n. split; [exact Hn|]. split; [exact Hc|exact Hle].
Defined.

(** C5.  For an identifier that occurs in the [building_id] column,
    [get_building] returns a record (no [HTTPException]) whose
    [building_id] is the identifier asked for; the record is a row of the
    table. *)
Theorem get_building_present (json_loads : string → option JSON)
    (df : DataFrame) (bid : string) :
  bid ∈ building_id <$> rows df →
  ∃ b, Api.get_building json_loads bid df = (Ok b, df) ∧
       building_id (record b) = bid ∧ record b ∈ rows df.
Proof.
  intros (r & rest & Hw & Hr & Hid)%where_building_id_found.
  run_endpoint. rewrite Hw. eexists. split; [reflexivity|]. done.
Qed.

Lemma get_building_present_witness :
  ∃ b, Api.get_building Json.loads "B3" sample_df = (Ok b, sample_df) ∧
       building_id (record b) = "B3" ∧ record b ∈ rows sample_df.
Proof.
  apply (get_building_present Json.loads sample_df "B3").
  apply list_elem_of_In. simpl. tauto.
Defined.

(** C6.  For an identifier that is not in the table [get_building] raises
    the 404 [HTTPException], and for a cluster id that no row has
    [get_cluster] does: the handler ends with an error result, and the
    table is the one it started with. *)
Theorem unknown_key_is_not_found (json_loads : string → option JSON)
    (df : DataFrame) :
  (∀ bid, bid ∉ building_id <$> rows df →
     Api.get_building json_loads bid df
     = (HTTPException 404 "Building not found", df)) ∧
  (∀ cid, cid ∉ cluster <$> rows df →
     Api.get_cluster cid df = (HTTPException 404 "Cluster not found", df)).
Proof.
  split.
  - intros bid Hn. run_endpoint. by rewrite where_building_id_absent.
  - intros cid Hn. run_endpoint. by rewrite where_cluster_absent.
Qed.

Lemma unknown_key_is_not_found_witness :
  Api.get_building Json.loads "B9" sample_df
  = (HTTPException 404 "Building not found", sample_df) ∧
  Api.get_cluster 7 sample_df
  = (HTTPException 404 "Cluster not found", sample_df).
Proof.
  split.
  - apply (proj1 (unknown_key_is_not_found Json.loads sample_df)).
    rewrite list_elem_of_In. simpl. intros H.
    repeat destruct H as [H|H]; try discriminate H. exact H.
  - apply (proj2 (unknown_key_is_not_found Json.loads sample_df)).
    rewrite list_elem_of_In. simpl. intros H.
    repeat destruct H as [H|H]; try discriminate H. exact H.
Defined.

(** The handlers never change the table. *)
Lemma get_building_reads_only json_loads bid df :
  (Api.get_building json_loads bid df).2 = df.
Proof. run_endpoint. by destruct (where_building_id bid (rows df)). Qed.

Lemma get_cluster_reads_only cid df : (Api.get_cluster cid df).2 = df.
Proof. run_endpoint. by destruct (where_cluster cid (rows df)). Qed.

Lemma get_summary_reads_only df : (Api.get_summary df).2 = df.
Proof. done. Qed.

(** C7.  In a table whose identifiers are distinct, for every row whose
    [shap_json] is a non-empty string that [json.loads] rejects,
    [get_building] returns that row with [shap_values] the empty
    dictionary, in the API and in the cloud dashboard alike; no error
    reaches the caller. *)
Theorem malformed_shap_is_empty (json_loads : string → option JSON)
    (df : DataFrame) (r : Building) (s : string) :
  NoDup (building_id <$> rows df) →
  r ∈ rows df →
  has_shap_json df = true →
  shap_json r = PyStr s →
  s ≠ EmptyString →
  json_loads s = None →
  Api.get_building json_loads (building_id r) df
  = (Ok {| record := r; shap_values := Some (JDict []) |}, df) ∧
  Cloud.get_building json_loads (building_id r) df
  = Some {| record := r; shap_values := Some (JDict []) |}.
Proof.
  intros Hnd Hr Hcol Hs Hne Hbad.
  assert (Ht : truthy (shap_json r) = true).
  { rewrite Hs. simpl. apply negb_true_iff, String.eqb_neq. exact Hne. }
  split.
  - run_endpoint. rewrite (where_building_id_unique _ _ Hnd Hr).
    rewrite Hcol, Ht. simpl. unfold Api.loads_cell. by rewrite Hs, Hbad.
  - unfold Cloud.get_building. rewrite (where_building_id_unique _ _ Hnd Hr).
    rewrite Hcol, Ht. unfold Api.loads_cell. rewrite Hs, Hbad. done.
Qed.

Lemma sample_ids_distinct : NoDup (building_id <$> rows sample_df).
Proof. apply (bool_decide_unpack _). vm_compute. exact I. Defined.

Lemma malformed_shap_is_empty_witness :
  let r := sample_row "B1" 0 3 true 10%Q (PyStr "not json") in
  Api.get_building Json.loads "B1" sample_df
  = (Ok {| record := r; shap_values := Some (JDict []) |}, sample_df) ∧
  Cloud.get_building Json.loads "B1" sample_df
  = Some {| record := r; shap_values := Some (JDict []) |}.
Proof.
  apply (malformed_shap_is_empty Json.loads sample_df
           (sample_row "B1" 0 3 true 10%Q (PyStr "not json")) "not json").
  - exact sample_ids_distinct.
  - apply list_elem_of_In. simpl. tauto.
  - reflexivity.
  - reflexivity.
  - discriminate.
  - vm_compute. reflexivity.
Defined.

(** C10.  For an identifier in the table, when the table has no
    [shap_json] column, or the cell of the record found is [None] or the
    empty string, the API's [get_building] returns the record without a
    [shap_values] key; the key is there only when the column exists and
    the cell is truthy. *)
Theorem shap_values_absent_when_falsy (json_loads : string → option JSON)
    (df : DataFrame) (bid : string) :
  bid ∈ building_id <$> rows df →
  ∃ b, Api.get_building json_loads bid df = (Ok b, df) ∧
       building_id (record b) = bid ∧
       (has_shap_json df = false ∨ shap_json (record b) = PyNone
        ∨ shap_json (record b) = PyStr EmptyString →
        shap_values b = None) ∧
       (shap_values b ≠ None →
        has_shap_json df = true ∧ truthy (shap_json (record b)) = true ∧
        shap_json (record b) ≠ PyNone ∧
        shap_json (record b) ≠ PyStr EmptyString).
Proof.
  intros (r & rest & Hw & Hr & Hid)%where_building_id_found.
  run_endpoint. rewrite Hw. eexists. split; [reflexivity|]. cbn [record shap_values].
  split; [done|]. split.
  - intros [->|[->| ->]]; [done| |]; by rewrite andb_false_r.
  - destruct (has_shap_json df), (shap_json r) as [| |s] eqn:Hs; simpl; try done.
    destruct (String.eqb_spec s EmptyString) as [->|Hne]; simpl; [done|].
    intros _. repeat split; try done. congruence.
Qed.

Lemma shap_values_absent_when_falsy_witness :
  ∃ b, Api.get_building Json.loads "B2" sample_df = (Ok b, sample_df) ∧
       building_id (record b) = "B2" ∧
       (has_shap_json sample_df = false ∨ shap_json (record b) = PyNone
        ∨ shap_json (record b) = PyStr EmptyString →
        shap_values b = None) ∧
       (shap_values b ≠ None →
        has_shap_json sample_df = true ∧ truthy (shap_json (record b)) = true ∧
        shap_json (record b) ≠ PyNone ∧
        shap_json (record b) ≠ PyStr EmptyString).
Proof.
  apply (shap_values_absent_when_falsy Json.loads sample_df "B2").
  apply list_elem_of_In. simpl. tauto.
Defined.

(** Cluster 0 of the sample has baseloads 10 and 20, cluster 1 the single
    baseload 4. *)
Example get_cluster_sample :
  (avg_baseload <$> returned (Api.get_cluster 0) sample_df,
   avg_baseload <$> returned (Api.get_cluster 1) sample_df)
  = (Some (Qmake 30 2), Some (Qmake 4 1)).
Proof. vm_compute. reflexivity. Qed.

(** C9.  The [get_summary] helper of the cloud dashboard and the
    [get_summary] handler of the API return the same summary on every
    table: the same total, anomaly count, underperformer count, cluster
    sizes and [top_priority] list. *)
Theorem cloud_summary_agrees_with_api (df : DataFrame) :
  ∃ s, Api.get_summary df = (Ok s, df) ∧
       total_buildings s = total_buildings (Cloud.get_summary df) ∧
       anomalies s = anomalies (Cloud.get_summary df) ∧
       underperformers s = underperformers (Cloud.get_summary df) ∧
       clusters s = clusters (Cloud.get_summary df) ∧
       top_priority s = top_priority (Cloud.get_summary df) ∧
       s = Cloud.get_summary df.
Proof. eexists. split; [reflexivity|]. repeat split. Qed.

(** ** The cluster labeling rule *)

Lemma Qltb_true (x y : Q) : Qltb x y = true ↔ (x < y)%Q.
Proof.
  unfold Qltb. rewrite negb_true_iff, <- not_true_iff_false, Qle_bool_iff.
  split; [apply Qnot_le_lt|apply Qlt_not_le].
Qed.

Lemma Qltb_false (x y : Q) : Qltb x y = false ↔ (y <= x)%Q.
Proof. unfold Qltb. by rewrite negb_false_iff, Qle_bool_iff. Qed.

Lemma StronglySorted_lookup_le {A} (R : relation A) l i j x y :
  (∀ a, R a a) →
  StronglySorted R l → l !! i = Some x → l !! j = Some y → (i ≤ j)%nat → R x y.
Proof.
  intros Hrefl Hl. revert i j.
  induction Hl as [|a l Hl IH Ha]; intros i j Hi Hj Hij; [done|].
  destruct i as [|i], j as [|j]; simplify_eq/=; [apply Hrefl| |lia|].
  - rewrite Forall_forall in Ha. by eapply Ha, list_elem_of_lookup_2.
  - eapply IH; [done..|lia].
Qed.

Lemma descriptions_inj (a b : Label) : descriptions a = descriptions b → a = b.
Proof. by destruct a, b. Qed.

Section ClusterLabeling.
Context {K : Type} (int : K → Z).

Abbreviation key := (λ x : K * ClusterData, int x.1).
Abbreviation avg := (λ x : K * ClusterData, avg_baseload x.2).

Lemma clusters_by_baseload_sorted (stats : list (K * ClusterData)) :
  StronglySorted (λ x y, avg y <= avg x)%Q (clusters_by_baseload stats).
Proof.
  eapply StronglySorted_weaken; [|apply stable_sort_sorted].
  - unfold may_precede, baseload_before. intros x y H.
    by apply Qltb_false in H.
  - unfold baseload_before. intros x y H%Qltb_true.
    by apply Qltb_false, Qlt_le_weak.
  - unfold may_precede, baseload_before.
    intros x y z H1%Qltb_false H2%Qltb_false.
    apply Qltb_false. by eapply Qle_trans.
Qed.

Lemma describe_from_lookup (l : list (K * ClusterData)) n i j x :
  NoDup (key <$> l) → l !! j = Some x →
  describe_from int (key x) n i l = label_at n (i + j).
Proof.
  revert i j. induction l as [|[k s] l IH]; intros i j Hnd Hj; [done|].
  rewrite fmap_cons in Hnd. apply NoDup_cons in Hnd as [Hk Hnd].
  destruct j as [|j]; simplify_eq/=.
  - rewrite Z.eqb_refl, Nat.add_0_r. done.
  - destruct (Z.eqb_spec (int k) (int x.1)) as [Heq|_].
    + destruct Hk. rewrite Heq.
      apply (list_elem_of_fmap_2 key). by eapply list_elem_of_lookup_2.
    + rewrite IH with (j := j) by done. f_equal. lia.
Qed.

(** C1.  For cluster statistics with distinct cluster ids: a single
    cluster is labeled high baseload; among two or more, exactly one
    cluster is labeled high baseload and its mean baseload is the
    largest, exactly one is labeled efficient and its mean baseload is
    the smallest, and every other cluster is labeled standard. *)
Theorem cluster_labeling_rule (cluster_stats : list (K * ClusterData)) :
  NoDup (key <$> cluster_stats) →
  (∀ x, cluster_stats = [x] →
     get_cluster_description int (key x) cluster_stats
     = descriptions high_baseload) ∧
  ((2 ≤ length cluster_stats)%nat →
   ∃ hi lo, hi ∈ cluster_stats ∧ lo ∈ cluster_stats ∧ hi ≠ lo ∧
     (∀ x, x ∈ cluster_stats → (avg x <= avg hi)%Q ∧ (avg lo <= avg x)%Q) ∧
     (∀ x, x ∈ cluster_stats →
        (get_cluster_description int (key x) cluster_stats
         = descriptions high_baseload ↔ x = hi) ∧
        (get_cluster_description int (key x) cluster_stats
         = descriptions efficient ↔ x = lo) ∧
        (x ≠ hi → x ≠ lo →
         get_cluster_description int (key x) cluster_stats
         = descriptions standard))).
Proof.
  intros Hnd. split.
  { intros [k s] ->. unfold get_cluster_description, cluster_label. simpl.
    by rewrite Z.eqb_refl. }
  intros Hlen. unfold get_cluster_description, cluster_label.
  pose proof (clusters_by_baseload_sorted cluster_stats) as Hsorted.
  assert (Hperm : clusters_by_baseload cluster_stats ≡ₚ cluster_stats)
    by apply stable_sort_perm.
  set (sorted := clusters_by_baseload cluster_stats) in *.
  assert (Hn : length sorted = length cluster_stats) by by rewrite Hperm.
  assert (Hnds : NoDup (key <$> sorted)) by by rewrite Hperm.
  assert (Hnd' : NoDup sorted) by by eapply NoDup_fmap_1.
  destruct (lookup_lt_is_Some_2 sorted 0) as [hi Hhi]; [lia|].
  destruct (lookup_lt_is_Some_2 sorted (length sorted - 1)) as [lo Hlo]; [lia|].
  assert (Hlabel : ∀ x j, sorted !! j = Some x →
            describe_from int (key x) (length sorted) 0 sorted
            = label_at (length sorted) j).
  { intros x j Hj. by rewrite (describe_from_lookup _ _ _ j). }
  exists hi, lo. split; [|split; [|split; [|split]]].
  - rewrite <- Hperm. by eapply list_elem_of_lookup_2.
  - rewrite <- Hperm. by eapply list_elem_of_lookup_2.
  - intros ->. pose proof (NoDup_lookup _ _ _ _ Hnd' Hhi Hlo). lia.
  - intros x Hx. rewrite <- Hperm in Hx.
    apply list_elem_of_lookup_1 in Hx as [j Hj].
    assert (j < length sorted)%nat by by eapply lookup_lt_Some.
    split.
    + apply (StronglySorted_lookup_le
               (λ a b : K * ClusterData, (avg b <= avg a)%Q) sorted 0 j hi x);
        [intros a; apply Qle_refl|done..|lia].
    + apply (StronglySorted_lookup_le
               (λ a b : K * ClusterData, (avg b <= avg a)%Q)
               sorted j (length sorted - 1) x lo);
        [intros a; apply Qle_refl|done..|lia].
  - intros x Hx. rewrite <- Hperm in Hx.
    apply list_elem_of_lookup_1 in Hx as [j Hj].
    rewrite (Hlabel x j Hj). unfold label_at.
    split; [|split].
    + split.
      * intros Hl%descriptions_inj.
        destruct (Nat.eqb_spec j 0) as [->|_]; [congruence|].
        by destruct (j =? length sorted - 1)%nat.
      * intros ->. by rewrite (NoDup_lookup _ _ _ _ Hnd' Hj Hhi).
    + split.
      * intros Hl%descriptions_inj.
        destruct (Nat.eqb_spec j 0) as [->|_]; [done|].
        destruct (Nat.eqb_spec j (length sorted - 1)) as [->|_]; [congruence|done].
      * intros ->. rewrite (NoDup_lookup _ _ _ _ Hnd' Hj Hlo).
        rewrite Nat.eqb_refl.
        by destruct (Nat.eqb_spec (length sorted - 1) 0) as [?|_]; [lia|].
    + intros Hnhi Hnlo.
      destruct (Nat.eqb_spec j 0) as [->|_]; [congruence|].
      destruct (Nat.eqb_spec j (length sorted - 1)) as [->|_]; [congruence|done].
Qed.
End ClusterLabeling.

Example sample_stats_labels :
  (λ cid, name (get_cluster_description id cid sample_stats)) <$> [0; 1; 2; 5]
  = name ∘ descriptions <$> [standard; high_baseload; efficient; standard].
Proof. vm_compute. reflexivity. Qed.

Lemma cluster_labeling_rule_witness :
  (∀ x, sample_stats = [x] →
     get_cluster_description id (id x.1) sample_stats
     = descriptions high_baseload) ∧
  ((2 ≤ length sample_stats)%nat →
   ∃ hi lo, hi ∈ sample_stats ∧ lo ∈ sample_stats ∧ hi ≠ lo ∧
     (∀ x, x ∈ sample_stats →
        (avg_baseload x.2 <= avg_baseload hi.2)%Q ∧
        (avg_baseload lo.2 <= avg_baseload x.2)%Q) ∧
     (∀ x, x ∈ sample_stats →
        (get_cluster_description id (id x.1) sample_stats
         = descriptions high_baseload ↔ x = hi) ∧
        (get_cluster_description id (id x.1) sample_stats
         = descriptions efficient ↔ x = lo) ∧
        (x ≠ hi → x ≠ lo →
         get_cluster_description id (id x.1) sample_stats
         = descriptions standard))).
Proof.
  apply (cluster_labeling_rule id sample_stats).
  apply (bool_decide_unpack _). vm_compute. exact I.
Defined.

(** ** The SHAP payload *)


(** The larger magnitude comes first whatever the order in the text, and
    equal magnitudes keep the order of the text. *)
Example sorted_shap_reorders :
  (Json.loads ("{" ++ Json.quoted "b" ++ ": -0.3, " ++ Json.quoted "a" ++ ": 0.5, "
               ++ Json.quoted "c" ++ ": 0.3}") ≫= sorted_shap)
  = Some [("a", JFloat (Qmake 1 2)); ("b", JFloat (Qmake (-3) 10));
          ("c", JFloat (Qmake 3 10))].
Proof. vm_compute. reflexivity. Qed.

(** A value that is not a number has no [abs]. *)
Example sorted_shap_type_error :
  (Json.loads ("{" ++ Json.quoted "a" ++ ": null}") ≫= sorted_shap) = None.
Proof. vm_compute. reflexivity. Qed.




(** ** More on the query service *)

Lemma value_counts_lookup (l : list Building) (cid : Z) :
  value_counts (cluster <$> l) !! cid
  = if decide (cluster_size cid l = O) then None else Some (cluster_size cid l).
Proof.
  unfold cluster_size. induction l as [|x l IH]; [done|].
  rewrite fmap_cons, filter_cons.
  change (value_counts (cluster x :: (cluster <$> l)))
    with (<[cluster x := S (default O (value_counts (cluster <$> l) !! cluster x))]>
            (value_counts (cluster <$> l))).
  destruct (decide (cluster x = cid)) as [->|Hne].
  - rewrite lookup_insert_eq, IH. simpl length.
    repeat case_decide; simpl; try done; try lia. f_equal. lia.
  - by rewrite lookup_insert_ne.
Qed.

Lemma total_count_insert (m : gmap Z nat) (c : Z) :
  total_count (<[c := S (default O (m !! c))]> m) = S (total_count m).
Proof.
  unfold total_count.
  assert (Hcomm : ∀ (m' : gmap Z nat) (j1 j2 : Z) (z1 z2 y : nat),
            j1 ≠ j2 → m' !! j1 = Some z1 → m' !! j2 = Some z2 →
            (z1 + (z2 + y) = z2 + (z1 + y))%nat) by (intros; lia).
  destruct (m !! c) as [n|] eqn:Hc; simpl.
  - rewrite <- insert_delete_eq.
    rewrite map_fold_insert_L; [|by eauto|by rewrite lookup_delete_eq].
    rewrite (map_fold_delete_L _ _ c n m); [lia|by eauto|done].
  - rewrite map_fold_insert_L; [done|by eauto|done].
Qed.

Lemma total_count_value_counts (l : list Z) :
  total_count (value_counts l) = length l.
Proof.
  induction l as [|c l IH]; [done|].
  change (value_counts (c :: l))
    with (<[c := S (default O (value_counts l !! c))]> (value_counts l)).
  by rewrite total_count_insert, IH.
Qed.

(** X1.  [list_buildings] has one entry per row, in table order, and every
    identifier it lists is found by [get_building]; when identifiers are
    distinct the record found has the listed type and rank. *)
Theorem listed_buildings_are_found (json_loads : string → option JSON)
    (df : DataFrame) :
  ∃ l, Api.list_buildings df = (Ok l, df) ∧
    (λ e, e.1.1) <$> l = building_id <$> rows df ∧
    ∀ bid ty rk, (bid, ty, rk) ∈ l →
      ∃ b, Api.get_building json_loads bid df = (Ok b, df) ∧
           building_id (record b) = bid ∧
           (NoDup (building_id <$> rows df) →
            building_type (record b) = ty ∧ priority_rank (record b) = rk).
Proof.
  eexists. split; [reflexivity|]. split.
  { rewrite <- list_fmap_compose. done. }
  intros bid ty rk (r & [= -> -> ->] & Hr)%list_elem_of_fmap.
  destruct (where_building_id_found (rows df) (building_id r))
    as (r' & rest & Hw & Hr' & Hid); [by apply list_elem_of_fmap_2|].
  run_endpoint. rewrite Hw. eexists. split; [reflexivity|].
  cbn [record]. split; [done|]. intros Hnd.
  rewrite (where_building_id_unique _ _ Hnd Hr) in Hw. by injection Hw as <- _.
Qed.

Lemma listed_buildings_are_found_witness :
  ∃ b, Api.get_building Json.loads "B2" sample_df = (Ok b, sample_df) ∧
       building_id (record b) = "B2" ∧
       building_type (record b) = "Office" ∧ priority_rank (record b) = 1.
Proof.
  destruct (listed_buildings_are_found Json.loads sample_df) as (l & Hl & _ & H).
  injection Hl as <-.
  destruct (H "B2" "Office" 1) as (b & Hb & Hid & Hrest).
  - apply list_elem_of_In. simpl. tauto.
  - exists b. split; [exact Hb|]. split; [exact Hid|].
    apply Hrest. exact sample_ids_distinct.
Defined.

(** X2.  The [clusters] dictionary of [get_summary] has a key for exactly
    the cluster ids that occur in the table, and its value is the number
    of rows of the cluster. *)
Theorem summary_clusters_count_rows (df : DataFrame) :
  ∃ s, Api.get_summary df = (Ok s, df) ∧
    ∀ cid, clusters s !! cid
           = if decide (cluster_size cid (rows df) = O) then None
             else Some (cluster_size cid (rows df)).
Proof.
  eexists. split; [reflexivity|]. intros cid. apply value_counts_lookup.
Qed.

(** X3.  The cluster sizes of [get_summary] add up to [total_buildings]:
    every row is counted in exactly one cluster. *)
Theorem summary_clusters_partition (df : DataFrame) :
  ∃ s, Api.get_summary df = (Ok s, df) ∧
       total_count (clusters s) = total_buildings s.
Proof.
  eexists. split; [reflexivity|]. cbn [clusters total_buildings].
  by rewrite total_count_value_counts, length_fmap.
Qed.

(** X4.  [get_cluster] answers for exactly the keys of the [clusters]
    dictionary of [get_summary]: for a key it returns the cluster with the
    size the summary gives, which is never zero, and for any other id it
    raises the 404 exception. *)
Theorem get_cluster_matches_summary (df : DataFrame) (cid : Z) :
  ∃ s, Api.get_summary df = (Ok s, df) ∧
    match clusters s !! cid with
    | Some n =>
        ∃ c, Api.get_cluster cid df = (Ok c, df) ∧
             cluster_id c = cid ∧ count c = n ∧ n ≠ O
    | None =>
        Api.get_cluster cid df = (HTTPException 404 "Cluster not found", df)
    end.
Proof.
  eexists. split; [reflexivity|]. cbn [clusters].
  rewrite value_counts_lookup. unfold cluster_size. run_endpoint.
  change (where_cluster cid (rows df))
    with (filter (λ r, cluster r = cid) (rows df)).
  destruct (filter (λ r, cluster r = cid) (rows df)) as [|m ms]; simpl; [done|].
  eexists. split; [reflexivity|]. done.
Qed.

(** X5.  The [buildings] list of [get_cluster] holds the identifiers of
    the rows of the cluster, in table order, as many as [count] says and
    at least one; each of them is found by [get_building], and with
    distinct identifiers the building found is in that cluster. *)
Theorem cluster_buildings_are_members (json_loads : string → option JSON)
    (df : DataFrame) (cid : Z) (c : ClusterData) :
  Api.get_cluster cid df = (Ok c, df) →
  buildings c = building_id <$> filter (λ r, cluster r = cid) (rows df) ∧
  length (buildings c) = count c ∧ count c ≠ O ∧
  ∀ bid, bid ∈ buildings c →
    ∃ b, Api.get_building json_loads bid df = (Ok b, df) ∧
         building_id (record b) = bid ∧
         (NoDup (building_id <$> rows df) → cluster (record b) = cid).
Proof.
  run_endpoint.
  change (where_cluster cid (rows df))
    with (filter (λ r, cluster r = cid) (rows df)).
  destruct (filter (λ r, cluster r = cid) (rows df)) as [|m ms] eqn:Hm;
    [done|].
  intros [= <-]. cbn [buildings count].
  change (building_id m :: list_fmap _ _ building_id ms)
    with (building_id <$> m :: ms).
  rewrite <- Hm.
  split; [done|]. split; [by rewrite length_fmap, Hm|]. split; [done|].
  intros bid (r & -> & [Hc Hr]%list_elem_of_filter)%list_elem_of_fmap.
  destruct (where_building_id_found (rows df) (building_id r))
    as (r' & rest & Hw & Hr' & Hid); [by apply list_elem_of_fmap_2|].
  rewrite Hw. eexists. split; [reflexivity|]. cbn [record].
  split; [done|]. intros Hnd.
  rewrite (where_building_id_unique _ _ Hnd Hr) in Hw. by injection Hw as <- _.
Qed.

Lemma cluster_buildings_are_members_witness :
  ∃ c, Api.get_cluster 0 sample_df = (Ok c, sample_df) ∧
       buildings c = ["B1"; "B3"] ∧ length (buildings c) = count c ∧
       count c ≠ O.
Proof.
  eexists. split; [reflexivity|].
  destruct (cluster_buildings_are_members Json.loads sample_df 0 _ eq_refl)
    as (Hb & Hl & Hc & _).
  split; [exact Hb|]. split; [exact Hl|exact Hc].
Defined.

(** X8.  The two flag counts of [get_summary] lie between zero and
    [total_buildings]; [underperformers] is the number of flagged rows
    when the table has the column and zero when it has not. *)
Theorem summary_counts_within_total (df : DataFrame) :
  ∃ s, Api.get_summary df = (Ok s, df) ∧
    0 ≤ anomalies s ≤ Z.of_nat (total_buildings s) ∧
    0 ≤ underperformers s ≤ Z.of_nat (total_buildings s) ∧
    underperformers s
    = if has_underperformer df
      then Z.of_nat (length (filter (λ r, underperformer r = true) (rows df)))
      else 0.
Proof.
  eexists. split; [reflexivity|].
  cbn [anomalies underperformers total_buildings].
  pose proof (length_filter (λ r, is_anomaly r = true) (rows df)).
  pose proof (length_filter (λ r, underperformer r = true) (rows df)).
  rewrite !bool_sum_count.
  destruct (has_underperformer df); repeat split; lia.
Qed.

(** ** The cloud helpers against the API *)

(** X9.  The cloud dashboard's [get_building] finds a building exactly
    when the API's does (its [None] stands where the API raises 404); the
    record is the same, and its [shap_values] is what a dashboard reads
    from the API's answer with [building.get('shap_values', {})]. *)
Theorem cloud_building_agrees_with_api (json_loads : string → option JSON)
    (df : DataFrame) (bid : string) :
  match Cloud.get_building json_loads bid df with
  | None =>
      Api.get_building json_loads bid df
      = (HTTPException 404 "Building not found", df)
  | Some cb =>
      ∃ b, Api.get_building json_loads bid df = (Ok b, df) ∧
           record cb = record b ∧
           shap_values cb = Some (default (JDict []) (shap_values b))
  end.
Proof.
  unfold Cloud.get_building, Api.get_building, raise, get_df, mbind,
    endpoint_bind, mret, endpoint_ret.
  destruct (where_building_id bid (rows df)) as [|r rest]; [done|].
  eexists. split; [reflexivity|]. cbn [record shap_values]. split; [done|].
  destruct (has_shap_json df), (shap_json r) as [| |s]; simpl; try done.
  - destruct (negb (String.eqb s EmptyString)); simpl; [|done].
    by destruct (json_loads s).
Qed.

(** X10.  The cloud dashboard's [get_cluster] answers exactly when the
    API's does, with the same id, size, mean baseload and mean weekend
    ratio. *)
Theorem cloud_cluster_agrees_with_api (df : DataFrame) (cid : Z) :
  match Cloud.get_cluster cid df with
  | None =>
      Api.get_cluster cid df = (HTTPException 404 "Cluster not found", df)
  | Some cs =>
      ∃ c, Api.get_cluster cid df = (Ok c, df) ∧
           Cloud.cs_cluster_id cs = cluster_id c ∧
           Cloud.cs_count cs = count c ∧
           Cloud.cs_avg_baseload cs = avg_baseload c ∧
           Cloud.cs_avg_weekend_ratio cs = avg_weekend_ratio c
  end.
Proof.
  unfold Cloud.get_cluster, Api.get_cluster, raise, get_df, mbind,
    endpoint_bind, mret, endpoint_ret.
  destruct (where_cluster cid (rows df)) as [|r rest]; [done|].
  eexists. split; [reflexivity|]. done.
Qed.

(** X11.  When the table has the [shap_json] column, a building whose
    cell is a float [nan] (a missing value) gets the empty dictionary as
    [shap_values], since [json.loads] raises on it; and a non-empty string
    that [json.loads] accepts gets the decoded value as it is, whatever
    kind of JSON value that is. *)
Theorem shap_values_of_truthy_cell (json_loads : string → option JSON)
    (df : DataFrame) (bid : string) (b : BuildingRecord) :
  Api.get_building json_loads bid df = (Ok b, df) →
  has_shap_json df = true →
  (shap_json (record b) = PyNaN → shap_values b = Some (JDict [])) ∧
  (∀ s v, shap_json (record b) = PyStr s → s ≠ EmptyString →
          json_loads s = Some v → shap_values b = Some v).
Proof.
  unfold Api.get_building, raise, get_df, mbind, endpoint_bind, mret,
    endpoint_ret.
  destruct (where_building_id bid (rows df)) as [|r rest]; [done|].
  intros [= <-] Hcol. cbn [record shap_values]. rewrite Hcol. split.
  - by intros ->.
  - intros s v -> Hne Hv. simpl.
    apply String.eqb_neq in Hne. rewrite Hne. simpl. by rewrite Hv.
Qed.

Lemma shap_values_of_truthy_cell_witness :
  ∃ b, Api.get_building Json.loads "B1" shap_df = (Ok b, shap_df) ∧
       shap_values b
       = Some (JDict [("a", JFloat (Qmake 1 2)); ("b", JFloat (Qmake (-3) 10))]).
Proof.
  eexists. split; [reflexivity|].
  refine (proj2 (shap_values_of_truthy_cell Json.loads shap_df "B1" _
                   eq_refl eq_refl) shap_payload _ eq_refl _ _).
  - discriminate.
  - vm_compute. reflexivity.
Defined.

(** ** More on the cluster labeling rule *)

Lemma insert_by_first {A} (before : A → A → bool) (x : A) (l : list A) :
  (∀ y, y ∈ l → before y x = false) → insert_by before x l = x :: l.
Proof.
  destruct l as [|y l]; [done|]. intros Hl. simpl.
  by rewrite (Hl y) by (by left).
Qed.

Lemma insert_by_last {A} (before : A → A → bool) (x : A) (l : list A) :
  (∀ y, y ∈ l → before y x = true) → insert_by before x l = l ++ [x].
Proof.
  induction l as [|y l IH]; [done|]. intros Hl. simpl.
  rewrite (Hl y) by (by left). f_equal. apply IH.
  intros z Hz. apply Hl. by right.
Qed.

Lemma insert_by_snoc {A} (before : A → A → bool) (p x : A) (l : list A) :
  before x p = false → insert_by before p (l ++ [x]) = insert_by before p l ++ [x].
Proof.
  intros Hx. induction l as [|y l IH]; simpl; [by rewrite Hx|].
  destruct (before y p); [by rewrite IH|done].
Qed.

Section ClusterLabelingOrder.
Context {K : Type} (int : K → Z).

Abbreviation key := (λ x : K * ClusterData, int x.1).
Abbreviation avg := (λ x : K * ClusterData, avg_baseload x.2).

Lemma describe_from_absent (cid : Z) (n i : nat) (l : list (K * ClusterData)) :
  cid ∉ key <$> l → describe_from int cid n i l = standard.
Proof.
  revert i. induction l as [|[k s] l IH]; intros i Hn; [done|].
  rewrite fmap_cons in Hn. apply not_elem_of_cons in Hn as [Hk Hn]. simpl.
  destruct (Z.eqb_spec (int k) cid) as [Heq|_]; [by destruct Hk|by apply IH].
Qed.

(** X12.  A cluster id that is not among the keys of [cluster_stats] is
    described as standard operations; in particular every cluster is when
    [cluster_stats] is empty. *)
Theorem unknown_cluster_is_standard (cid : Z)
    (cluster_stats : list (K * ClusterData)) :
  cid ∉ key <$> cluster_stats →
  get_cluster_description int cid cluster_stats = descriptions standard.
Proof.
  intros Hn. unfold get_cluster_description, cluster_label. f_equal.
  apply describe_from_absent. unfold clusters_by_baseload.
  by rewrite stable_sort_perm.
Qed.

(** X13.  When no two clusters have the same mean baseload, the
    description of a cluster does not depend on the order in which the
    clusters were put into [cluster_stats]. *)
Theorem description_independent_of_order (cid : Z)
    (cluster_stats cluster_stats' : list (K * ClusterData)) :
  cluster_stats ≡ₚ cluster_stats' →
  (∀ x y, x ∈ cluster_stats → y ∈ cluster_stats →
          (avg x == avg y)%Q → x = y) →
  get_cluster_description int cid cluster_stats
  = get_cluster_description int cid cluster_stats'.
Proof.
  intros Hperm Hdistinct.
  unfold get_cluster_description, cluster_label.
  assert (Heq : clusters_by_baseload cluster_stats
                = clusters_by_baseload cluster_stats').
  { apply (StronglySorted_unique_strong (λ x y, avg y <= avg x)%Q).
    - intros x y Hx Hy Hxy Hyx. unfold clusters_by_baseload in Hx, Hy.
      rewrite stable_sort_perm in Hx, Hy. apply Hdistinct.
      + done.
      + by rewrite Hperm.
      + by apply Qle_antisym.
    - apply clusters_by_baseload_sorted.
    - apply clusters_by_baseload_sorted.
    - unfold clusters_by_baseload. by rewrite !stable_sort_perm. }
  by rewrite Heq.
Qed.

Lemma clusters_by_baseload_head (pre post : list (K * ClusterData)) x :
  (∀ y, y ∈ pre → (avg y < avg x)%Q) →
  (∀ y, y ∈ post → (avg y <= avg x)%Q) →
  ∃ rest, clusters_by_baseload (pre ++ x :: post) = x :: rest.
Proof.
  intros Hpre Hpost. unfold clusters_by_baseload.
  induction pre as [|p pre IH]; simpl.
  - eexists. apply insert_by_first. intros y Hy%stable_sort_elem_of.
    unfold baseload_before. by apply Qltb_false, Hpost.
  - destruct IH as [rest Hrest]; [intros y Hy; apply Hpre; by right|].
    rewrite Hrest. simpl.
    assert (Hp : baseload_before x p = true).
    { unfold baseload_before. apply Qltb_true, Hpre. by left. }
    rewrite Hp. eauto.
Qed.

Lemma clusters_by_baseload_last (pre post : list (K * ClusterData)) x :
  (∀ y, y ∈ pre → (avg x <= avg y)%Q) →
  (∀ y, y ∈ post → (avg x < avg y)%Q) →
  ∃ front, clusters_by_baseload (pre ++ x :: post) = front ++ [x].
Proof.
  intros Hpre Hpost. unfold clusters_by_baseload.
  induction pre as [|p pre IH]; simpl.
  - eexists. apply insert_by_last. intros y Hy%stable_sort_elem_of.
    unfold baseload_before. by apply Qltb_true, Hpost.
  - destruct IH as [front Hfront]; [intros y Hy; apply Hpre; by right|].
    rewrite Hfront. eexists. apply insert_by_snoc.
    unfold baseload_before. apply Qltb_false, Hpre. by left.
Qed.

(** X14.  Ties for the largest mean baseload go to the cluster that was
    put into [cluster_stats] first: a cluster whose mean is strictly above
    those before it and at least those after it is the high baseload
    one. *)
Theorem first_largest_is_high_baseload (pre post : list (K * ClusterData)) x :
  (∀ y, y ∈ pre → (avg y < avg x)%Q) →
  (∀ y, y ∈ post → (avg y <= avg x)%Q) →
  get_cluster_description int (key x) (pre ++ x :: post)
  = descriptions high_baseload.
Proof.
  intros Hpre Hpost.
  destruct (clusters_by_baseload_head pre post x Hpre Hpost) as [rest Hrest].
  unfold get_cluster_description, cluster_label. rewrite Hrest.
  destruct x as [k s]. simpl. by rewrite Z.eqb_refl.
Qed.

(** X15.  Ties for the smallest mean baseload go to the cluster that was
    put in last: with distinct cluster ids and at least two clusters, a
    cluster whose mean is at most those before it and strictly below
    those after it is the efficient one. *)
Theorem last_smallest_is_efficient (pre post : list (K * ClusterData)) x :
  NoDup (key <$> pre ++ x :: post) →
  pre ++ post ≠ [] →
  (∀ y, y ∈ pre → (avg x <= avg y)%Q) →
  (∀ y, y ∈ post → (avg x < avg y)%Q) →
  get_cluster_description int (key x) (pre ++ x :: post)
  = descriptions efficient.
Proof.
  intros Hnd Hne Hpre Hpost.
  destruct (clusters_by_baseload_last pre post x Hpre Hpost) as [front Hfront].
  unfold get_cluster_description, cluster_label.
  assert (Hperm : clusters_by_baseload (pre ++ x :: post) ≡ₚ pre ++ x :: post)
    by apply stable_sort_perm.
  assert (Hlen : length (clusters_by_baseload (pre ++ x :: post))
                 = S (length (pre ++ post))).
  { rewrite Hperm, !length_app. simpl. lia. }
  rewrite <- Hperm in Hnd. rewrite Hfront in Hnd, Hlen |- *.
  rewrite length_app in Hlen. simpl in Hlen.
  assert (length front ≠ O).
  { destruct (pre ++ post); [done|]. simpl in Hlen. lia. }
  rewrite (describe_from_lookup int _ _ _ (length front) x Hnd).
  - unfold label_at. rewrite length_app. cbn [length Nat.add].
    destruct (Nat.eqb_spec (length front) 0) as [?|_]; [lia|].
    destruct (Nat.eqb_spec (length front) (length front + 1 - 1)) as [_|?];
      [done|lia].
  - rewrite lookup_app_r by lia. by rewrite Nat.sub_diag.
Qed.
End ClusterLabelingOrder.

Lemma unknown_cluster_is_standard_witness :
  get_cluster_description id 5 sample_stats = descriptions standard.
Proof.
  apply (unknown_cluster_is_standard id 5 sample_stats).
  rewrite list_elem_of_In. simpl. intros H.
  repeat destruct H as [H|H]; try discriminate H. exact H.
Defined.

Lemma description_independent_of_order_witness :
  get_cluster_description id 1 sample_stats
  = get_cluster_description id 1 (reverse sample_stats).
Proof.
  apply (description_independent_of_order id 1 sample_stats (reverse sample_stats)).
  - symmetry. apply reverse_Permutation.
  - intros x y Hx Hy. apply list_elem_of_In in Hx, Hy. simpl in Hx, Hy.
    destruct Hx as [<-|[<-|[<-|[]]]], Hy as [<-|[<-|[<-|[]]]];
      intros H; try reflexivity; discriminate H.
Defined.

Lemma first_largest_is_high_baseload_witness :
  get_cluster_description id 0 tied_stats = descriptions high_baseload.
Proof.
  apply (first_largest_is_high_baseload id []
           [sample_cluster 1 9%Q; sample_cluster 2 4%Q; sample_cluster 3 4%Q]
           (sample_cluster 0 9%Q)).
  - intros y Hy. by apply elem_of_nil in Hy.
  - intros y Hy. apply list_elem_of_In in Hy. simpl in Hy.
    destruct Hy as [<-|[<-|[<-|[]]]]; unfold Qle; simpl; lia.
Defined.

Lemma last_smallest_is_efficient_witness :
  get_cluster_description id 3 tied_stats = descriptions efficient.
Proof.
  apply (last_smallest_is_efficient id
           [sample_cluster 0 9%Q; sample_cluster 1 9%Q; sample_cluster 2 4%Q]
           [] (sample_cluster 3 4%Q)).
  - apply (bool_decide_unpack _). vm_compute. exact I.
  - discriminate.
  - intros y Hy. apply list_elem_of_In in Hy. simpl in Hy.
    destruct Hy as [<-|[<-|[<-|[]]]]; unfold Qle; simpl; lia.
  - intros y Hy. by apply elem_of_nil in Hy.
Defined.

(** ** More on the SHAP chart *)

Lemma stable_sort_sorted_id {A} (before : A → A → bool) (l : list A) :
  StronglySorted (may_precede before) l → stable_sort before l = l.
Proof.
  induction 1 as [|x l Hl IH Hx]; [done|]. simpl. rewrite IH.
  apply insert_by_first. intros y Hy. rewrite Forall_forall in Hx.
  by apply Hx.
Qed.

Lemma StronglySorted_with {A} (R : relation A) (P : A → Prop) (l : list A) :
  StronglySorted R l → Forall P l →
  StronglySorted (λ x y, R x y ∧ P x ∧ P y) l.
Proof.
  induction 1 as [|x l Hl IH Hx]; intros HP; [constructor|].
  apply Forall_cons in HP as [Px HP]. constructor; [by apply IH|].
  rewrite Forall_forall in Hx, HP |- *. intros y Hy. auto.
Qed.

Lemma abs_sorted (keyed : list (Q * (string * JSON))) :
  StronglySorted (may_precede abs_before) (stable_sort abs_before keyed).
Proof.
  apply stable_sort_sorted.
  - unfold abs_before. intros x y H%Qltb_true.
    by apply Qltb_false, Qlt_le_weak.
  - unfold may_precede, abs_before.
    intros x y z H1%Qltb_false H2%Qltb_false.
    apply Qltb_false. by eapply Qle_trans.
Qed.

(** The items of [shap_values] with their keys, as [sorted_shap] pairs
    them. *)
Lemma sorted_shap_keyed (items l : list (string * JSON)) :
  sorted_shap (JDict items) = Some l →
  ∃ keyed, snd <$> keyed = items ∧
           Forall (λ kx, abs kx.2.2 = Some kx.1) keyed ∧
           l = snd <$> stable_sort abs_before keyed.
Proof.
  unfold sorted_shap.
  destruct (mapM _ items) as [keyed|] eqn:Hk; [|done].
  intros [= <-]. exists keyed. apply mapM_Some_1 in Hk.
  split; [|split; [|done]].
  - induction Hk as [|x kx items keyed Hx _ IH]; [done|].
    rewrite fmap_cons, IH. f_equal.
    destruct (abs x.2); simplify_eq/=; done.
  - induction Hk as [|x kx items keyed Hx _ IH]; constructor; [|done].
    destruct (abs x.2) eqn:Ha; simplify_eq/=; done.
Qed.

(** X16.  [sorted_shap] is defined on a dictionary exactly when every
    value has an absolute value (is a number); its result has the same
    items, the one with the larger absolute value first. *)
Theorem sorted_shap_orders_items (items : list (string * JSON)) :
  (is_Some (sorted_shap (JDict items))
   ↔ Forall (λ x, is_Some (abs x.2)) items) ∧
  (∀ l, sorted_shap (JDict items) = Some l →
        l ≡ₚ items ∧
        StronglySorted (λ x y, ∃ a b, abs x.2 = Some a ∧ abs y.2 = Some b
                                      ∧ (b <= a)%Q) l).
Proof.
  split.
  - unfold sorted_shap.
    destruct (mapM _ items) as [keyed|] eqn:Hk; simpl.
    + split; [intros _|by eauto].
      apply mapM_Some_1 in Hk.
      induction Hk as [|x kx items keyed Hx _ IH]; constructor; [|done].
      by destruct (abs x.2).
    + split; [by intros [? ?]|]. intros Hall.
      assert (Hs : is_Some (mapM (λ x : string * JSON,
                                    k ← abs x.2; Some (k, x)) items)).
      { apply mapM_is_Some. eapply Forall_impl; [exact Hall|].
        intros x [a Ha]. simpl. rewrite Ha. by eexists. }
      rewrite Hk in Hs. by destruct Hs.
  - intros l (keyed & <- & Hkeys & ->)%sorted_shap_keyed. split.
    + by rewrite stable_sort_perm.
    + assert (Hs : StronglySorted
                (λ kx ky : Q * (string * JSON),
                   may_precede abs_before kx ky
                   ∧ abs kx.2.2 = Some kx.1 ∧ abs ky.2.2 = Some ky.1)
                (stable_sort abs_before keyed)).
      { apply (StronglySorted_with (may_precede abs_before)
                 (λ kx, abs kx.2.2 = Some kx.1));
          [apply abs_sorted|by rewrite stable_sort_perm]. }
      eapply StronglySorted_fmap; [|exact Hs].
      intros kx ky (Hle & Hx & Hy). exists kx.1, ky.1.
      split; [done|]. split; [done|].
      by apply Qltb_false in Hle.
Qed.

(** X17.  Sorting what [sorted_shap] returned changes nothing: a
    dictionary whose items already come in descending absolute value is
    left in its order, ties included. *)
Theorem sorted_shap_idempotent (items l : list (string * JSON)) :
  sorted_shap (JDict items) = Some l → sorted_shap (JDict l) = Some l.
Proof.
  intros (keyed & _ & Hkeys & ->)%sorted_shap_keyed.
  set (sk := stable_sort abs_before keyed).
  assert (Hsk : Forall (λ kx, abs kx.2.2 = Some kx.1) sk)
    by (unfold sk; by rewrite stable_sort_perm).
  unfold sorted_shap.
  assert (Hm : mapM (λ x : string * JSON, k ← abs x.2; Some (k, x)) (snd <$> sk)
               = Some sk).
  { apply mapM_Some_2. clear -Hsk.
    induction Hsk as [|[k x] sk Hx _ IH]; [constructor|].
    rewrite fmap_cons. constructor; [|done]. simpl in *. by rewrite Hx. }
  rewrite Hm. simpl. do 2 f_equal.
  apply stable_sort_sorted_id, abs_sorted.
Qed.

Lemma sorted_shap_idempotent_witness :
  sorted_shap (JDict [("a", JFloat (Qmake 1 2)); ("b", JFloat (Qmake (-3) 10))])
  = Some [("a", JFloat (Qmake 1 2)); ("b", JFloat (Qmake (-3) 10))].
Proof.
  apply (sorted_shap_idempotent
           [("b", JFloat (Qmake (-3) 10)); ("a", JFloat (Qmake 1 2))]).
  vm_compute. reflexivity.
Defined.

Lemma sorted_shap_orders_items_witness :
  is_Some (sorted_shap
             (JDict [("b", JFloat (Qmake (-3) 10)); ("a", JFloat (Qmake 1 2))])).
Proof.
  apply (proj1 (sorted_shap_orders_items
                  [("b", JFloat (Qmake (-3) 10)); ("a", JFloat (Qmake 1 2))])).
  repeat constructor; by eexists.
Defined.

(** ** The priority list and the building explorer *)

(** X18.  With distinct identifiers, every entry of [top_priority] can be
    opened in the building explorer: [get_building] on its
    [building_id] returns a record of which the entry is the projection. *)
Theorem top_priority_entries_are_found (json_loads : string → option JSON)
    (df : DataFrame) :
  NoDup (building_id <$> rows df) →
  ∃ s, Api.get_summary df = (Ok s, df) ∧
    ∀ e, e ∈ top_priority s →
      ∃ b, Api.get_building json_loads (pe_building_id e) df = (Ok b, df) ∧
           project (record b) = e.
Proof.
  intros Hnd. eexists. split; [reflexivity|]. cbn [top_priority].
  intros e (r & -> & Hr)%list_elem_of_fmap.
  assert (Hin : r ∈ rows df).
  { apply (stable_sort_elem_of rank_before). by eapply subseteq_take. }
  unfold Api.get_building, raise, get_df, mbind, endpoint_bind, mret,
    endpoint_ret.
  change (pe_building_id (project r)) with (building_id r).
  rewrite (where_building_id_unique _ _ Hnd Hin).
  eexists. split; [reflexivity|]. done.
Qed.

Lemma top_priority_entries_are_found_witness :
  ∃ s, Api.get_summary sample_df = (Ok s, sample_df) ∧
    ∀ e, e ∈ top_priority s →
      ∃ b, Api.get_building Json.loads (pe_building_id e) sample_df
           = (Ok b, sample_df) ∧ project (record b) = e.
Proof.
  apply (top_priority_entries_are_found Json.loads sample_df).
  exact sample_ids_distinct.
Defined.

(** X19.  On a table of at most ten rows [top_priority] lists every
    building: it is the projection of all the rows, rearranged. *)
Theorem top_priority_of_small_table (df : DataFrame) :
  (length (rows df) ≤ 10)%nat →
  ∃ s, Api.get_summary df = (Ok s, df) ∧
       top_priority s ≡ₚ project <$> rows df.
Proof.
  intros Hlen. eexists. split; [reflexivity|]. cbn [top_priority].
  unfold nsmallest. rewrite take_ge by (by rewrite stable_sort_length).
  by rewrite stable_sort_perm.
Qed.

Lemma top_priority_of_small_table_witness :
  ∃ s, Api.get_summary sample_df = (Ok s, sample_df) ∧
       top_priority s ≡ₚ project <$> rows sample_df.
Proof.
  apply (top_priority_of_small_table sample_df). simpl. lia.
Defined.

(** ** [dashboard.py]: the anomaly percentage *)

(** X20.  The percentage shown beside the anomalies metric fails with a
    division by zero exactly on an empty table; on any other table it is
    between 0 and 100. *)
Theorem anomaly_percent_range (df : DataFrame) :
  ∃ s, Api.get_summary df = (Ok s, df) ∧
    (Dashboard.anomaly_percent s = None ↔ rows df = []) ∧
    (∀ p, Dashboard.anomaly_percent s = Some p → (0 <= p <= 100)%Q).
Proof.
  eexists. split; [reflexivity|]. unfold Dashboard.anomaly_percent.
  cbn [total_buildings anomalies]. rewrite bool_sum_count.
  pose proof (length_filter (λ r, is_anomaly r = true) (rows df)) as Hle.
  set (a := length (filter (λ r, is_anomaly r = true) (rows df))) in *.
  destruct (rows df) as [|r l] eqn:Hrows; simpl length; simpl Nat.eqb.
  - split; [done|]. intros p [=].
  - split; [split; intros [=]|]. intros p [= <-].
    set (n := inject_Z (Z.of_nat (S (length l)))).
    assert (Hn : (0 < n)%Q) by (unfold n, Qlt; simpl; lia).
    assert (Ha0 : (0 <= inject_Z (Z.of_nat a))%Q) by (unfold Qle; simpl; lia).
    assert (Han : (inject_Z (Z.of_nat a) <= n)%Q).
    { unfold n. rewrite <- Zle_Qle. simpl length in Hle. lia. }
    split.
    + apply Qmult_le_0_compat; [|done].
      apply Qle_shift_div_l; [done|]. by rewrite Qmult_0_l.
    + assert (E : (100 == 1 * 100)%Q) by ring. rewrite E at 2.
      apply Qmult_le_compat_r; [|done].
      apply Qle_shift_div_r; [done|]. by rewrite Qmult_1_l.
Qed.

Lemma anomaly_percent_range_witness :
  ∃ s, Api.get_summary sample_df = (Ok s, sample_df) ∧
       ∃ p, Dashboard.anomaly_percent s = Some p ∧ (0 <= p <= 100)%Q.
Proof.
  destruct (anomaly_percent_range sample_df) as (s & Hs & _ & Hp).
  exists s. split; [exact Hs|].
  injection Hs as <-. eexists. split; [reflexivity|].
  apply Hp. reflexivity.
Defined.

(** ** Lookups by identifier *)

(** X21.  [get_building] answers with the first row of the table that has
    the identifier: rows further down with the same identifier are never
    returned. *)
Theorem get_building_returns_first_match (json_loads : string → option JSON)
    (df : DataFrame) (pre post : list Building) (r : Building) :
  rows df = pre ++ r :: post →
  (∀ y, y ∈ pre → building_id y ≠ building_id r) →
  ∃ b, Api.get_building json_loads (building_id r) df = (Ok b, df) ∧
       record b = r.
Proof.
  intros Hrows Hpre.
  unfold Api.get_building, raise, get_df, mbind, endpoint_bind, mret,
    endpoint_ret.
  rewrite Hrows. unfold where_building_id.
  rewrite filter_app, (filter_none _ pre) by done.
  rewrite filter_cons_True by done. simpl.
  eexists. split; [reflexivity|]. done.
Qed.

Lemma get_building_returns_first_match_witness :
  ∃ b, Api.get_building Json.loads "B2" sample_df = (Ok b, sample_df) ∧
       record b = sample_row "B2" 1 1 false 4%Q PyNone.
Proof.
  apply (get_building_returns_first_match Json.loads sample_df
           [sample_row "B1" 0 3 true 10%Q (PyStr "not json")]
           [sample_row "B3" 0 2 true 20%Q (PyStr EmptyString)]
           (sample_row "B2" 1 1 false 4%Q PyNone)).
  - reflexivity.
  - intros y Hy. apply list_elem_of_In in Hy. simpl in Hy.
    destruct Hy as [<-|[]]. discriminate.
Defined.

(** X22.  The cluster of a building that [get_building] returned always
    exists: [get_cluster] on its [cluster] field answers, and the
    building's identifier is in the [buildings] list of the answer. *)
Theorem building_cluster_is_found (json_loads : string → option JSON)
    (df : DataFrame) (bid : string) (b : BuildingRecord) :
  Api.get_building json_loads bid df = (Ok b, df) →
  ∃ c, Api.get_cluster (cluster (record b)) df = (Ok c, df) ∧
       cluster_id c = cluster (record b) ∧
       bid ∈ buildings c.
Proof.
  unfold Api.get_building, Api.get_cluster, raise, get_df, mbind,
    endpoint_bind, mret, endpoint_ret.
  destruct (where_building_id bid (rows df)) as [|r rest] eqn:Hw; [done|].
  intros [= <-]. cbn [record].
  assert (Hr : r ∈ where_building_id bid (rows df))
    by (rewrite Hw; by left).
  apply list_elem_of_filter in Hr as [Hid Hr].
  assert (Hc : r ∈ where_cluster (cluster r) (rows df))
    by by apply list_elem_of_filter.
  destruct (where_cluster (cluster r) (rows df)) as [|m ms] eqn:Hm;
    [by apply elem_of_nil in Hc|].
  eexists. split; [reflexivity|]. cbn [cluster_id buildings].
  split; [done|]. rewrite <- Hid. by apply list_elem_of_fmap_2.
Qed.

Lemma building_cluster_is_found_witness :
  ∃ c, Api.get_cluster 0 sample_df = (Ok c, sample_df) ∧
       cluster_id c = 0 ∧ "B3" ∈ buildings c.
Proof.
  exact (building_cluster_is_found Json.loads sample_df "B3" _ eq_refl).
Defined.
